(** * Blob-created CloudEvents function: a shallow embedding and its properties

    The development follows [python_cloudevents_function.py].  Python
    values that travel through the handlers are JSON documents, dictionaries
    are finite maps keyed by strings, and every handler is a computation in
    a small monad that accumulates the log and either returns or raises. *)

From Stdlib Require Import ZArith String Ascii List.
From Stdlib Require Import Floats.SpecFloat.
From stdpp Require Import base option gmap strings list fin_maps.

Local Open Scope string_scope.
Local Open Scope list_scope.
Local Open Scope Z_scope.

(** ** Values *)

(** What [json.loads] can produce, and what the handlers pass around. *)
#[warnings="-register-all"]
Inductive json : Type :=
  | JNull
  | JBool (b : bool)
  | JInt (n : Z)
  | JFloat (f : spec_float)
  | JStr (s : string)
  | JArr (l : list json)
  | JObj (d : gmap string json).

(** Python truth value of a value ([if v:], [not v]). *)
Definition truthy (v : json) : bool :=
  match v with
  | JNull => false
  | JBool b => b
  | JInt n => negb (n =? 0)
  | JFloat (S754_zero _) => false
  | JFloat _ => true
  | JStr s => negb (String.eqb s "")
  | JArr l => match l with [] => false | _ :: _ => true end
  | JObj d => negb (bool_decide (d = ∅))
  end.

(** [v == s] for a string literal [s]: values of another type compare unequal. *)
Definition py_eq_str (v : json) (s : string) : bool :=
  match v with
  | JStr t => String.eqb t s
  | _ => false
  end.

(** ** Exceptions, log and the handler monad *)

Inductive exn : Type :=
  | AttributeError
  | IndexError
  | KeyError
  | TypeError
  | ValueError.

Inductive level : Type := LvInfo | LvWarning | LvError.

(** The functions whose invocation the properties count. *)
Inductive fname : Type :=
  | Fextract_blob_info
  | Fprocess_blob_created
  | Fprocess_image_blob
  | Fprocess_text_blob
  | Fprocess_json_blob
  | Fprocess_generic_blob.

#[global] Instance fname_eq_dec : EqDecision fname.
Proof. solve_decision. Defined.

Inductive outcome (A : Type) : Type :=
  | Ok (a : A)
  | Raise (e : exn).
Arguments Ok {A} a.
Arguments Raise {A} e.

(** The platform's objects: what the handlers read from them.  A JSON
    accessor is given by what the call yields, a document or an exception.
    [azure.functions.EventGridEvent] has the attributes below: a [topic],
    and no [source]. *)
Module EventGridEvent.
Record t : Type := mk {
  id : string;
  topic : string;
  subject : string;
  event_type : string;
  event_time : string;
  data_version : option string;
  get_json : outcome json
}.
End EventGridEvent.

Module HttpRequest.
Record t : Type := mk {
  method : string;
  headers : gmap string string;
  get_json : outcome json
}.
End HttpRequest.

(** [func.HttpResponse(body, status_code=..., headers=...)]; a body is
    absent or the text [json.dumps] gives for a document. *)
Inductive resp_body : Type :=
  | NoBody
  | JsonDumps (j : json).

Module HttpResponse.
Record t : Type := mk {
  body : resp_body;
  status_code : Z;
  headers : gmap string string
}.
End HttpResponse.

(** An interpolated value of an f-string: a value, [str(e)] or the event. *)
Inductive fmt_arg : Type :=
  | FVal (v : json)
  | FExn (e : exn)
  | FEvent (ev : EventGridEvent.t).

(** One observable step: a logger call (the f-string's fixed text with its
    interpolated values beside it) or the entry into a function. *)
Inductive event : Type :=
  | Log (lv : level) (template : string) (args : list fmt_arg)
  | Enter (f : fname).

(** A computation: what it logged, and how it ended. *)
Record M (A : Type) : Type := Run {
  trace : list event;
  result : outcome A
}.
Arguments Run {A} trace result.
Arguments trace {A} m.
Arguments result {A} m.

#[global] Instance M_ret : MRet M := fun A a => Run [] (Ok a).
#[global] Instance M_bind : MBind M := fun A B f m =>
  match result m with
  | Ok a => let r := f a in Run (trace m ++ trace r) (result r)
  | Raise e => Run (trace m) (Raise e)
  end.

Definition raise {A} (e : exn) : M A := Run [] (Raise e).
Definition lift {A} (o : outcome A) : M A := Run [] o.
Definition tell (ev : event) : M unit := Run [ev] (Ok tt).

(** [try: m  except Exception as e: h e] *)
Definition try_except {A} (m : M A) (h : exn -> M A) : M A :=
  match result m with
  | Ok a => m
  | Raise e => let r := h e in Run (trace m ++ trace r) (result r)
  end.

Definition logger_info (template : string) (args : list fmt_arg) : M unit :=
  tell (Log LvInfo template args).
Definition logger_warning (template : string) (args : list fmt_arg) : M unit :=
  tell (Log LvWarning template args).
Definition logger_error (template : string) (args : list fmt_arg) : M unit :=
  tell (Log LvError template args).

(** How often function [f] was entered during a run. *)
Definition is_enter (f : fname) (ev : event) : bool :=
  match ev with
  | Enter g => bool_decide (f = g)
  | Log _ _ _ => false
  end.

Definition calls (f : fname) (t : list event) : nat :=
  length (List.filter (is_enter f) t).

(** ** Python primitives the handlers use *)

(** [v.get(k, dflt)]: only a dict has [get]. *)
Definition dict_get (v : json) (k : string) (dflt : json) : M json :=
  match v with
  | JObj d => mret (default dflt (d !! k))
  | _ => raise AttributeError
  end.

(** [d[k]] on a dict. *)
Definition dict_getitem (d : gmap string json) (k : string) : M json :=
  match d !! k with
  | Some v => mret v
  | None => raise KeyError
  end.

(** [s.split(sep)] for a one-character separator: one more segment than
    there are separators, never an empty list. *)
Fixpoint split (sep : ascii) (s : string) : list string :=
  match s with
  | EmptyString => [""]
  | String c r =>
      if Ascii.eqb c sep then "" :: split sep r
      else match split sep r with
           | [] => [String c ""]
           | h :: t => String c h :: t
           end
  end.

(** [v.split(sep)]: only a string has [split] among JSON values. *)
Definition str_split (v : json) (sep : ascii) : M (list string) :=
  match v with
  | JStr s => mret (split sep s)
  | _ => raise AttributeError
  end.

(** [l[i]] with Python's negative indices. *)
Definition list_getitem {A} (l : list A) (i : Z) : M A :=
  let n := Z.of_nat (length l) in
  let j := if i <? 0 then i + n else i in
  if (j <? 0) || (n <=? j) then raise IndexError
  else match l !! Z.to_nat j with
       | Some x => mret x
       | None => raise IndexError
       end.

(** [v.startswith(p)]: only a string has [startswith] among JSON values. *)
Definition str_startswith (v : json) (p : string) : M bool :=
  match v with
  | JStr s => mret (String.prefix p s)
  | _ => raise AttributeError
  end.

(** [event.name] on the trigger's event: an attribute the class does not
    have raises. *)
Definition event_getattr (event : EventGridEvent.t) (name : string) : M json :=
  if String.eqb name "id" then mret (JStr (EventGridEvent.id event))
  else if String.eqb name "topic" then mret (JStr (EventGridEvent.topic event))
  else if String.eqb name "subject" then mret (JStr (EventGridEvent.subject event))
  else if String.eqb name "event_type"
  then mret (JStr (EventGridEvent.event_type event))
  else if String.eqb name "event_time"
  then mret (JStr (EventGridEvent.event_time event))
  else raise AttributeError.

(** The module [azure.functions], imported as [func]: what the program
    reads from it by name.  The module exports the classes below and no
    [datetime]; reading a name it does not export raises. *)
Definition func_exports : list string :=
  ["FunctionApp"; "EventGridEvent"; "HttpRequest"; "HttpResponse"; "AuthLevel"].

Definition func_getattr (name : string) : M unit :=
  if existsb (String.eqb name) func_exports then mret tt
  else raise AttributeError.

(** ** The program *)

(** Lines 54-86. *)
Definition extract_blob_info (event_data : json) : M (gmap string json) :=
  tell (Enter Fextract_blob_info);;
  try_except
    (url ← dict_get event_data "url" (JStr "");
     api ← dict_get event_data "api" (JStr "");
     client_request_id ← dict_get event_data "clientRequestId" (JStr "");
     request_id ← dict_get event_data "requestId" (JStr "");
     etag ← dict_get event_data "eTag" (JStr "");
     content_type ← dict_get event_data "contentType" (JStr "");
     content_length ← dict_get event_data "contentLength" (JInt 0);
     blob_type ← dict_get event_data "blobType" (JStr "");
     sequencer ← dict_get event_data "sequencer" (JStr "");
     let blob_info : gmap string json :=
       <["sequencer" := sequencer]>
       (<["blob_type" := blob_type]>
       (<["content_length" := content_length]>
       (<["content_type" := content_type]>
       (<["etag" := etag]>
       (<["request_id" := request_id]>
       (<["client_request_id" := client_request_id]>
       (<["api" := api]>
       (<["url" := url]> ∅)))))))) in
     u ← dict_getitem blob_info "url";
     if truthy u then
       u1 ← dict_getitem blob_info "url";
       parts1 ← str_split u1 "/";
       blob_name ← list_getitem parts1 (-1);
       let blob_info1 := <["blob_name" := JStr blob_name]> blob_info in
       u2 ← dict_getitem blob_info1 "url";
       parts2 ← str_split u2 "/";
       container_name ← list_getitem parts2 (-2);
       mret (<["container_name" := JStr container_name]> blob_info1)
     else mret blob_info)
    (fun e =>
       logger_error "Error extracting blob info: {}" [FExn e];;
       mret ∅).

(** Lines 118-165: the four stubs log one line and do nothing else. *)
Definition process_image_blob (blob_info event_info : gmap string json) : M unit :=
  tell (Enter Fprocess_image_blob);;
  logger_info "Processing image blob: {}" [FVal (default JNull (blob_info !! "blob_name"))].

Definition process_text_blob (blob_info event_info : gmap string json) : M unit :=
  tell (Enter Fprocess_text_blob);;
  logger_info "Processing text blob: {}" [FVal (default JNull (blob_info !! "blob_name"))].

Definition process_json_blob (blob_info event_info : gmap string json) : M unit :=
  tell (Enter Fprocess_json_blob);;
  logger_info "Processing JSON blob: {}" [FVal (default JNull (blob_info !! "blob_name"))].

Definition process_generic_blob (blob_info event_info : gmap string json) : M unit :=
  tell (Enter Fprocess_generic_blob);;
  logger_info "Processing generic blob: {}" [FVal (default JNull (blob_info !! "blob_name"))].

(** Lines 88-116. *)
Definition process_blob_created (blob_info event_info : gmap string json) : M unit :=
  tell (Enter Fprocess_blob_created);;
  logger_info "Processing blob creation:" [];;
  logger_info "  - Blob Name: {}" [FVal (default (JStr "Unknown") (blob_info !! "blob_name"))];;
  logger_info "  - Container: {}" [FVal (default (JStr "Unknown") (blob_info !! "container_name"))];;
  logger_info "  - Content Type: {}" [FVal (default (JStr "Unknown") (blob_info !! "content_type"))];;
  logger_info "  - Content Length: {} bytes" [FVal (default (JInt 0) (blob_info !! "content_length"))];;
  logger_info "  - Event Time: {}" [FVal (default (JStr "Unknown") (event_info !! "event_time"))];;
  let blob_name := default (JStr "") (blob_info !! "blob_name") in
  let content_type := default (JStr "") (blob_info !! "content_type") in
  is_image ← str_startswith content_type "image/";
  if (is_image : bool) then process_image_blob blob_info event_info
  else
    (is_text ← str_startswith content_type "text/";
     if (is_text : bool) then process_text_blob blob_info event_info
     else if py_eq_str content_type "application/json"
     then process_json_blob blob_info event_info
     else process_generic_blob blob_info event_info).

(** Lines 232-238: the local variables [process_cloudevent_http] reads from
    the envelope, gathered in a record. *)
Record cloudevent : Type := CloudEvent {
  spec_version : json;
  event_type : json;
  source : json;
  event_id : json;
  subject : json;
  time : json;
  data : json
}.

Definition cloudevent_fields (event_data : json) : M cloudevent :=
  spec_version ← dict_get event_data "specversion" (JStr "1.0");
  event_type ← dict_get event_data "type" (JStr "");
  source ← dict_get event_data "source" (JStr "");
  event_id ← dict_get event_data "id" (JStr "");
  subject ← dict_get event_data "subject" (JStr "");
  time ← dict_get event_data "time" (JStr "");
  data ← dict_get event_data "data" (JObj ∅);
  mret (CloudEvent spec_version event_type source event_id subject time data).

(** Lines 221-261. *)
Definition process_cloudevent_http (event_data : json) : M unit :=
  logger_info "CloudEvent received: {}" [FVal event_data];;
  ce ← cloudevent_fields event_data;
  logger_info "CloudEvent Details:" [];;
  logger_info "  - Spec Version: {}" [FVal (spec_version ce)];;
  logger_info "  - Type: {}" [FVal (event_type ce)];;
  logger_info "  - Source: {}" [FVal (source ce)];;
  logger_info "  - ID: {}" [FVal (event_id ce)];;
  logger_info "  - Subject: {}" [FVal (subject ce)];;
  logger_info "  - Time: {}" [FVal (time ce)];;
  if py_eq_str (event_type ce) "Microsoft.Storage.BlobCreated" then
    blob_info ← extract_blob_info (data ce);
    let event_info : gmap string json :=
      <["spec_version" := spec_version ce]>
      (<["event_time" := time ce]>
      (<["event_type" := event_type ce]>
      (<["subject" := subject ce]>
      (<["source" := source ce]>
      (<["id" := event_id ce]> ∅))))) in
    process_blob_created blob_info event_info
  else
    logger_warning "Unknown event type: {}" [FVal (event_type ce)].

(** Lines 14-52: the body of the [try], then the handler around it. *)
Definition blob_created_handler_try (event : EventGridEvent.t) : M unit :=
  logger_info "Raw event received: {}" [FEvent event];;
  event_data ← lift (EventGridEvent.get_json event);
  id ← event_getattr event "id";
  source ← event_getattr event "source";
  subject ← event_getattr event "subject";
  event_type ← event_getattr event "event_type";
  event_time ← event_getattr event "event_time";
  let data_version :=
    JStr (default "unknown" (EventGridEvent.data_version event)) in
  let event_info : gmap string json :=
    <["data_version" := data_version]>
    (<["event_time" := event_time]>
    (<["event_type" := event_type]>
    (<["subject" := subject]>
    (<["source" := source]>
    (<["id" := id]> ∅))))) in
  logger_info "CloudEvent metadata: {}" [FVal (JObj event_info)];;
  if truthy event_data then
    blob_info ← extract_blob_info event_data;
    process_blob_created blob_info event_info
  else
    logger_warning "No event data found in CloudEvent" [].

Definition blob_created_handler (event : EventGridEvent.t) : M unit :=
  try_except (blob_created_handler_try event)
    (fun e =>
       logger_error "Error processing CloudEvent: {}" [FExn e];;
       raise e).

(** [if origin:] on what [headers.get] returned, a string or [None]. *)
Definition truthy_header (origin : option string) : bool :=
  match origin with
  | Some s => negb (String.eqb s "")
  | None => false
  end.

Definition response (status : Z) : HttpResponse.t :=
  HttpResponse.mk NoBody status ∅.

(** Lines 168-219. *)
Definition blob_created_http_handler (req : HttpRequest.t) : M HttpResponse.t :=
  try_except
    (if String.eqb (HttpRequest.method req) "OPTIONS" then
       logger_info "Handling CloudEvent validation request" [];;
       let origin := HttpRequest.headers req !! "WebHook-Request-Origin" in
       if truthy_header origin then
         mret (HttpResponse.mk NoBody 200
                 {["WebHook-Allowed-Origin" := default "" origin]})
       else mret (response 400)
     else if String.eqb (HttpRequest.method req) "POST" then
       logger_info "Processing CloudEvent via HTTP trigger" [];;
       try_except
         (event_data ← lift (HttpRequest.get_json req);
          if negb (truthy event_data) then
            logger_error "No JSON data in request" [];;
            mret (response 400)
          else
            process_cloudevent_http event_data;;
            mret (response 200))
         (fun e =>
            logger_error "Error processing CloudEvent: {}" [FExn e];;
            mret (response 500))
     else mret (response 405))
    (fun e =>
       logger_error "Error in HTTP CloudEvent handler: {}" [FExn e];;
       mret (response 500)).

(** Lines 263-276.  The body's dict is built first, and with it
    [func.datetime] is read from the module; [utcnow_isoformat] is what
    [utcnow().isoformat()] would yield after that. *)
Definition health_check (utcnow_isoformat : string) (req : HttpRequest.t)
  : M HttpResponse.t :=
  func_getattr "datetime";;
  mret (HttpResponse.mk
          (JsonDumps (JObj (<["version" := JStr "1.0.0"]>
                           (<["timestamp" := JStr utcnow_isoformat]>
                           (<["status" := JStr "healthy"]> ∅)))))
          200
          {["Content-Type" := "application/json"]}).

(** * Properties *)

(** ** Laws of the handler monad *)

(** [after t m]: the computation [m] run once [t] has been logged. *)
Definition after {A} (t : list event) (m : M A) : M A :=
  Run (t ++ trace m) (result m).

Lemma result_after {A} t (m : M A) : result (after t m) = result m.
Proof. done. Qed.

Lemma trace_after {A} t (m : M A) : trace (after t m) = t ++ trace m.
Proof. done. Qed.

Lemma after_nil {A} (m : M A) : after [] m = m.
Proof. by destruct m. Qed.

Section monad_laws.
Context {A B : Type}.
Implicit Types (m : M A) (f : A -> M B) (t : list event).

Lemma bind_ok m f a : result m = Ok a -> m ≫= f = after (trace m) (f a).
Proof. intros Hm. unfold mbind, M_bind. by rewrite Hm. Qed.

Lemma bind_raise m f e :
  result m = Raise e -> m ≫= f = Run (trace m) (Raise e).
Proof. intros Hm. unfold mbind, M_bind. by rewrite Hm. Qed.

Lemma bind_ret (a : A) f : mret a ≫= f = f a.
Proof. rewrite (bind_ok _ _ a); [exact (after_nil (f a)) | done]. Qed.

Lemma bind_lift_ok (a : A) f : lift (Ok a) ≫= f = f a.
Proof. rewrite (bind_ok _ _ a); [exact (after_nil (f a)) | done]. Qed.

Lemma bind_lift_raise e f : lift (Raise e) ≫= f = raise e.
Proof. by rewrite (bind_raise _ _ e). Qed.

Lemma bind_raise_now e f : raise e ≫= f = raise e.
Proof. by rewrite (bind_raise _ _ e). Qed.

Lemma bind_after t m f : after t m ≫= f = after t (m ≫= f).
Proof.
  unfold after, mbind, M_bind; simpl.
  destruct (result m); simpl; by rewrite ?app_assoc.
Qed.

Lemma result_bind m f :
  result (m ≫= f) =
  match result m with Ok a => result (f a) | Raise e => Raise e end.
Proof. unfold mbind, M_bind. by destruct (result m). Qed.

Lemma trace_bind m f :
  trace (m ≫= f) =
  match result m with Ok a => trace m ++ trace (f a) | Raise _ => trace m end.
Proof. unfold mbind, M_bind. by destruct (result m). Qed.
End monad_laws.

Lemma bind_tell {B} (ev : event) (f : unit -> M B) :
  tell ev ≫= f = after [ev] (f tt).
Proof. by rewrite (bind_ok _ _ tt). Qed.

Lemma after_after {A} t1 t2 (m : M A) : after t1 (after t2 m) = after (t1 ++ t2) m.
Proof. unfold after; simpl. by rewrite app_assoc. Qed.

Lemma try_except_after {A} t (m : M A) h :
  try_except (after t m) h = after t (try_except m h).
Proof.
  unfold try_except, after.
  destruct m as [tr [a | e]]; simpl; by rewrite ?app_assoc.
Qed.

Lemma result_try_except {A} (m : M A) h :
  result (try_except m h) =
  match result m with Ok a => Ok a | Raise e => result (h e) end.
Proof. unfold try_except. by destruct (result m) eqn:E. Qed.

Lemma try_except_ok {A} (m : M A) h a : result m = Ok a -> try_except m h = m.
Proof. intros Hm. unfold try_except. by rewrite Hm. Qed.

Lemma try_except_raise {A} (m : M A) h e :
  result m = Raise e -> try_except m h = after (trace m) (h e).
Proof. intros Hm. unfold try_except. by rewrite Hm. Qed.

Lemma calls_app f t1 t2 : calls f (t1 ++ t2) = (calls f t1 + calls f t2)%nat.
Proof. unfold calls. by rewrite List.filter_app, length_app. Qed.

(** ** Dispatch on the content type *)

(** Calls of the image, text, JSON and generic stubs, in that order. *)
Definition stub_calls (t : list event) : list nat :=
  [calls Fprocess_image_blob t; calls Fprocess_text_blob t;
   calls Fprocess_json_blob t; calls Fprocess_generic_blob t].

Ltac step_logs :=
  unfold logger_info, logger_warning, logger_error;
  repeat (rewrite bind_tell, ?after_after; simpl app).

Ltac run_stub :=
  unfold process_image_blob, process_text_blob, process_json_blob,
    process_generic_blob;
  step_logs; unfold tell, after; split; reflexivity.

(** What the router does once the content type is known to be a string. *)
Lemma process_blob_created_str blob_info event_info s :
  blob_info !! "content_type" = Some (JStr s) ->
  let m := process_blob_created blob_info event_info in
  result m = Ok tt /\
  stub_calls (trace m) =
    if String.prefix "image/" s then [1; 0; 0; 0]%nat
    else if String.prefix "text/" s then [0; 1; 0; 0]%nat
    else if String.eqb s "application/json" then [0; 0; 1; 0]%nat
    else [0; 0; 0; 1]%nat.
Proof.
  intros Hct m. subst m. unfold process_blob_created.
  step_logs. rewrite Hct. simpl default.
  unfold str_startswith. rewrite bind_ret.
  destruct (String.prefix "image/" s); [by run_stub |].
  rewrite bind_ret.
  destruct (String.prefix "text/" s); [by run_stub |].
  unfold py_eq_str.
  destruct (String.eqb s "application/json"); by run_stub.
Qed.

(** ** Extraction of the blob information *)

(** The nine entries [extract_blob_info] copies out of a dict payload. *)
Definition copied_fields (d : gmap string json) : gmap string json :=
  <["sequencer" := default (JStr "") (d !! "sequencer")]>
  (<["blob_type" := default (JStr "") (d !! "blobType")]>
  (<["content_length" := default (JInt 0) (d !! "contentLength")]>
  (<["content_type" := default (JStr "") (d !! "contentType")]>
  (<["etag" := default (JStr "") (d !! "eTag")]>
  (<["request_id" := default (JStr "") (d !! "requestId")]>
  (<["client_request_id" := default (JStr "") (d !! "clientRequestId")]>
  (<["api" := default (JStr "") (d !! "api")]>
  (<["url" := default (JStr "") (d !! "url")]> ∅)))))))).

(** The run that ends in the local handler: one error line, empty dict. *)
Definition extraction_failed (e : exn) : M (gmap string json) :=
  Run [Enter Fextract_blob_info;
       Log LvError "Error extracting blob info: {}" [FExn e]] (Ok ∅).

Lemma list_getitem_neg {A} (l : list A) (k : nat) :
  list_getitem l (- Z.of_nat (S k)) =
  match reverse l !! k with
  | Some x => mret x
  | None => raise IndexError
  end.
Proof.
  unfold list_getitem.
  assert (Hneg : (- Z.of_nat (S k) <? 0) = true) by (apply Z.ltb_lt; lia).
  rewrite Hneg.
  destruct (decide (k < length l)%nat) as [Hlt | Hge].
  - rewrite reverse_lookup by done.
    assert (Hj : - Z.of_nat (S k) + Z.of_nat (length l)
                 = Z.of_nat (length l - S k)) by lia.
    rewrite Hj, Nat2Z.id.
    assert (H1 : (Z.of_nat (length l - S k) <? 0) = false) by (apply Z.ltb_ge; lia).
    assert (H2 : (Z.of_nat (length l) <=? Z.of_nat (length l - S k)) = false)
      by (apply Z.leb_gt; lia).
    by rewrite H1, H2.
  - rewrite (lookup_ge_None_2 (reverse l) k) by (rewrite length_reverse; lia).
    assert (H1 : (- Z.of_nat (S k) + Z.of_nat (length l) <? 0) = true)
      by (apply Z.ltb_lt; lia).
    by rewrite H1.
Qed.

Lemma dict_getitem_url d :
  dict_getitem (copied_fields d) "url" = mret (default (JStr "") (d !! "url")).
Proof. unfold dict_getitem, copied_fields. by simplify_map_eq. Qed.

Lemma dict_getitem_blob_name_url d v :
  dict_getitem (<["blob_name" := v]> (copied_fields d)) "url"
  = mret (default (JStr "") (d !! "url")).
Proof. unfold dict_getitem, copied_fields. by simplify_map_eq. Qed.

Lemma handler_runs (e : exn) :
  after [Enter Fextract_blob_info]
    (try_except (raise e)
       (fun e => logger_error "Error extracting blob info: {}" [FExn e];; mret ∅))
  = extraction_failed e.
Proof. done. Qed.

Lemma extract_blob_info_dict (d : gmap string json) :
  extract_blob_info (JObj d) =
  let url := default (JStr "") (d !! "url") in
  if truthy url then
    match url with
    | JStr s =>
        match reverse (split "/" s) with
        | blob_name :: container_name :: _ =>
            Run [Enter Fextract_blob_info]
              (Ok (<["container_name" := JStr container_name]>
                    (<["blob_name" := JStr blob_name]> (copied_fields d))))
        | _ => extraction_failed IndexError
        end
    | _ => extraction_failed AttributeError
    end
  else Run [Enter Fextract_blob_info] (Ok (copied_fields d)).
Proof.
  unfold extract_blob_info. rewrite bind_tell.
  unfold dict_get. rewrite !bind_ret.
  fold (copied_fields d).
  rewrite !dict_getitem_url, bind_ret.
  cbv beta zeta. remember (default (JStr "") (d !! "url")) as url eqn:Hurl.
  destruct (truthy url) eqn:Htruthy; [| done].
  rewrite bind_ret.
  destruct url as [| b | n | f | s | l | o];
    try (simpl str_split; rewrite bind_raise_now; by rewrite handler_runs).
  simpl str_split. rewrite bind_ret.
  rewrite (list_getitem_neg _ 0).
  destruct (reverse (split "/" s)) as [| blob_name [| container_name rest]] eqn:Hrev;
    simpl lookup; cbv iota.
  - rewrite bind_raise_now. by rewrite handler_runs.
  - rewrite bind_ret, dict_getitem_blob_name_url, bind_ret, <- Hurl.
    simpl str_split. rewrite bind_ret, (list_getitem_neg _ 1), Hrev. simpl lookup; cbv iota.
    rewrite bind_raise_now. by rewrite handler_runs.
  - rewrite bind_ret, dict_getitem_blob_name_url, bind_ret, <- Hurl.
    simpl str_split. rewrite bind_ret, (list_getitem_neg _ 1), Hrev. simpl lookup; cbv iota.
    by rewrite !bind_ret.
Qed.

Lemma extract_blob_info_not_dict (v : json) :
  (forall d, v <> JObj d) ->
  extract_blob_info v = extraction_failed AttributeError.
Proof.
  intros Hv. unfold extract_blob_info. rewrite bind_tell.
  destruct v; try (by exfalso; eapply Hv);
    simpl dict_get; rewrite bind_raise_now; by rewrite handler_runs.
Qed.

(** The extractor handles every failure itself: it always returns. *)
Lemma extract_blob_info_returns (v : json) :
  exists blob_info, result (extract_blob_info v) = Ok blob_info.
Proof.
  destruct v as [| b | n | f | s | l | d];
    try (rewrite extract_blob_info_not_dict by done; by eexists).
  rewrite extract_blob_info_dict. cbv zeta.
  destruct (truthy _); [| by eexists].
  destruct (default _ _); try by eexists.
  destruct (reverse _) as [| ? [| ? ?]]; by eexists.
Qed.

Lemma extract_blob_info_calls (v : json) :
  calls Fextract_blob_info (trace (extract_blob_info v)) = 1%nat /\
  calls Fprocess_blob_created (trace (extract_blob_info v)) = 0%nat.
Proof.
  destruct v as [| b | n | f | s | l | d];
    try (rewrite extract_blob_info_not_dict by done; by split).
  rewrite extract_blob_info_dict. cbv zeta.
  destruct (truthy _); [| by split].
  destruct (default _ _); try by split.
  destruct (reverse _) as [| ? [| ? ?]]; by split.
Qed.

(** A url that is absent, or present but false in Python's sense. *)
Definition url_falsy (d : gmap string json) : Prop :=
  truthy (default (JStr "") (d !! "url")) = false.

Lemma short_split_reverse (s : string) :
  (length (split "/" s) < 2)%nat ->
  match reverse (split "/" s) with
  | _ :: _ :: _ => False
  | _ => True
  end.
Proof.
  intros Hlen. rewrite <- length_reverse in Hlen.
  destruct (reverse _) as [| ? [| ? ?]]; simpl in *; [done | done | lia].
Qed.

(** [split] gives one segment more than there are separators. *)
Fixpoint count_sep (sep : ascii) (s : string) : nat :=
  match s with
  | EmptyString => 0
  | String c r => ((if Ascii.eqb c sep then 1 else 0) + count_sep sep r)%nat
  end.

Lemma split_length sep s : length (split sep s) = S (count_sep sep s).
Proof.
  induction s as [| c r IH]; [done |].
  simpl. destruct (Ascii.eqb c sep); simpl; [by rewrite IH |].
  destruct (split sep r); simpl in *; [done | lia].
Qed.

Lemma copied_fields_derived d :
  copied_fields d !! "blob_name" = None /\
  copied_fields d !! "container_name" = None.
Proof. unfold copied_fields. by simplify_map_eq. Qed.

Lemma copied_fields_content_length d :
  copied_fields d !! "content_length"
  = Some (default (JInt 0) (d !! "contentLength")).
Proof. unfold copied_fields. by simplify_map_eq. Qed.

Lemma copied_fields_content_type d :
  copied_fields d !! "content_type"
  = Some (default (JStr "") (d !! "contentType")).
Proof. unfold copied_fields. by simplify_map_eq. Qed.

(** C5 (as amended).  For a dict payload whose url is absent or the empty
    string, the extractor returns the nine copied fields as they are and
    sets no [blob_name] or [container_name] entry, so both read as the
    empty string under the router's empty-string default.  For a non-empty
    url with fewer than two "/"-separated segments the index [-2] fails,
    the local handler runs, and the result is the empty dict: the derived
    entries are unset, and so is every copied field. *)
Theorem extract_blob_info_short_url (d : gmap string json) :
  (d !! "url" = None \/ d !! "url" = Some (JStr "") ->
     extract_blob_info (JObj d)
       = Run [Enter Fextract_blob_info] (Ok (copied_fields d)) /\
     default (JStr "") (copied_fields d !! "blob_name") = JStr "" /\
     default (JStr "") (copied_fields d !! "container_name") = JStr "") /\
  (forall s, d !! "url" = Some (JStr s) -> s <> "" ->
     (length (split "/" s) < 2)%nat ->
     extract_blob_info (JObj d) = extraction_failed IndexError /\
     result (extract_blob_info (JObj d)) = Ok ∅).
Proof.
  split.
  - intros Hurl. destruct (copied_fields_derived d) as [-> ->].
    split; [| done].
    rewrite extract_blob_info_dict. by destruct Hurl as [-> | ->].
  - intros s Hurl Hne Hlen.
    assert (Hrun : extract_blob_info (JObj d) = extraction_failed IndexError);
      [| by rewrite Hrun].
    rewrite extract_blob_info_dict, Hurl. simpl default. cbv zeta.
    assert (Ht : truthy (JStr s) = true).
    { simpl. destruct (String.eqb_spec s ""); [done | done]. }
    rewrite Ht. pose proof (short_split_reverse s Hlen) as Hrev.
    by destruct (reverse (split "/" s)) as [| ? [| ? ?]].
Qed.

Lemma extract_blob_info_short_url_witness :
  extract_blob_info (JObj ∅)
    = Run [Enter Fextract_blob_info] (Ok (copied_fields ∅)) /\
  result (extract_blob_info (JObj {["url" := JStr "readme.txt"]})) = Ok ∅.
Proof.
  split.
  - apply (proj1 (extract_blob_info_short_url ∅)). by left.
  - apply (proj2 (extract_blob_info_short_url {["url" := JStr "readme.txt"]})
             "readme.txt"); [reflexivity | discriminate | vm_compute; lia].
Defined.

(** C5, the claim as written fails: a url of one segment makes the extractor
    return the empty dict, so the content type the payload carried is gone. *)
Lemma extract_blob_info_one_segment_drops_fields :
  let d : gmap string json :=
    <["url" := JStr "readme.txt"]> {["contentType" := JStr "text/plain"]} in
  (length (split "/" "readme.txt") < 2)%nat /\
  extract_blob_info (JObj d) = extraction_failed IndexError /\
  (exists blob_info,
     result (extract_blob_info (JObj d)) = Ok blob_info /\
     blob_info !! "content_type" = None /\
     blob_info !! "blob_name" = None).
Proof.
  cbv zeta. split; [vm_compute; lia |].
  split; [by vm_compute |].
  exists ∅. split; [by vm_compute | done].
Qed.

(** C6 (as amended).  Whenever extraction of a dict payload succeeds with a
    non-empty result, its [content_length] entry is the payload's
    [contentLength] value exactly as given, whatever its type or sign, and
    the integer 0 when the key is absent. *)
Theorem content_length_passed_through (d blob_info : gmap string json) :
  result (extract_blob_info (JObj d)) = Ok blob_info ->
  blob_info <> ∅ ->
  blob_info !! "content_length" = Some (default (JInt 0) (d !! "contentLength")).
Proof.
  rewrite extract_blob_info_dict. cbv zeta.
  destruct (truthy _).
  - destruct (default (JStr "") (d !! "url"));
      try (simpl; intros [= <-]; done).
    destruct (reverse _) as [| blob_name [| container_name rest]];
      simpl; intros [= <-] Hne; [done | done |].
    rewrite !lookup_insert_ne by done. apply copied_fields_content_length.
  - simpl. intros [= <-] _. apply copied_fields_content_length.
Qed.

Lemma content_length_passed_through_witness :
  copied_fields {["contentLength" := JInt 42]} !! "content_length"
  = Some (JInt 42).
Proof.
  refine (content_length_passed_through {["contentLength" := JInt 42]}
            (copied_fields {["contentLength" := JInt 42]}) _ _).
  - rewrite extract_blob_info_dict. reflexivity.
  - unfold copied_fields. apply insert_non_empty.
Defined.

(** C6, the claim as written fails: a non-numeric [contentLength] is neither
    coerced nor treated as a failure, it is copied into the result. *)
Lemma content_length_not_coerced :
  let d : gmap string json := {["contentLength" := JStr "abc"]} in
  exists blob_info,
    result (extract_blob_info (JObj d)) = Ok blob_info /\
    blob_info !! "content_length" = Some (JStr "abc") /\
    blob_info <> ∅.
Proof.
  cbv zeta. exists (copied_fields {["contentLength" := JStr "abc"]}).
  split; [rewrite extract_blob_info_dict; reflexivity |].
  split; [rewrite copied_fields_content_length; reflexivity |].
  unfold copied_fields. apply insert_non_empty.
Qed.

(** ** Reading the envelope *)

(** C7 (as amended).  Reading the envelope fields of a JSON object never
    fails.  A field whose key is absent gets its default: the empty string
    for id, source, type, time and subject, "1.0" for the spec version, the
    empty object for data.  A field whose key is present is the value under
    it, unchanged and of whatever type. *)
Theorem cloudevent_fields_defaults (d : gmap string json) :
  cloudevent_fields (JObj d) =
  mret {| spec_version := default (JStr "1.0") (d !! "specversion");
          event_type := default (JStr "") (d !! "type");
          source := default (JStr "") (d !! "source");
          event_id := default (JStr "") (d !! "id");
          subject := default (JStr "") (d !! "subject");
          time := default (JStr "") (d !! "time");
          data := default (JObj ∅) (d !! "data") |}.
Proof. unfold cloudevent_fields, dict_get. by rewrite !bind_ret. Qed.

(** C7, the claim as written fails: a number under "id" and a string under
    "data" are kept, not replaced by the defaults. *)
Lemma cloudevent_fields_keeps_other_types :
  let d : gmap string json := <["id" := JInt 5]> {["data" := JStr "x"]} in
  exists ce,
    result (cloudevent_fields (JObj d)) = Ok ce /\
    event_id ce = JInt 5 /\ event_id ce <> JStr "" /\
    data ce = JStr "x" /\ data ce <> JObj ∅.
Proof.
  cbv zeta. eexists. split; [by vm_compute |]. simpl. done.
Qed.

(** ** The router *)

(** C8.  For a content type that is the string [s], the router returns
    normally and calls exactly one stub, the first that matches: the image
    stub when [s] starts with "image/", else the text stub when it starts
    with "text/", else the JSON stub when [s] is "application/json", else
    the generic stub.  The comparison is on the characters as they are. *)
Theorem process_blob_created_one_stub
    (blob_info event_info : gmap string json) (s : string) :
  let m := process_blob_created (<["content_type" := JStr s]> blob_info) event_info in
  result m = Ok tt /\
  stub_calls (trace m) =
    if String.prefix "image/" s then [1; 0; 0; 0]%nat
    else if String.prefix "text/" s then [0; 1; 0; 0]%nat
    else if String.eqb s "application/json" then [0; 0; 1; 0]%nat
    else [0; 0; 0; 1]%nat.
Proof. apply process_blob_created_str. apply lookup_insert_eq. Qed.

(** The branches cannot overlap, so "first match" loses nothing. *)
Lemma prefix_text_not_image s :
  String.prefix "text/" s = true -> String.prefix "image/" s = false.
Proof.
  destruct s as [| c r]; [done |].
  change (String.prefix "text/" (String c r))
    with (if ascii_dec "t" c then String.prefix "ext/" r else false).
  change (String.prefix "image/" (String c r))
    with (if ascii_dec "i" c then String.prefix "mage/" r else false).
  destruct (ascii_dec "t" c) as [<- | Hc]; [| done].
  intros _. by destruct (ascii_dec "i" "t").
Qed.

Example router_image_png :
  stub_calls (trace (process_blob_created {["content_type" := JStr "image/png"]} ∅))
  = [1; 0; 0; 0]%nat.
Proof. by vm_compute. Qed.

Example router_empty_content_type :
  stub_calls (trace (process_blob_created {["content_type" := JStr ""]} ∅))
  = [0; 0; 0; 1]%nat.
Proof. by vm_compute. Qed.

Example router_no_content_type :
  stub_calls (trace (process_blob_created ∅ ∅)) = [0; 0; 0; 1]%nat.
Proof. by vm_compute. Qed.

Example router_case_sensitive :
  stub_calls (trace (process_blob_created {["content_type" := JStr "Image/png"]} ∅))
  = [0; 0; 0; 1]%nat.
Proof. by vm_compute. Qed.

(** A content type that is not a string has no [startswith]. *)
Lemma process_blob_created_not_str blob_info event_info v :
  blob_info !! "content_type" = Some v ->
  (forall s, v <> JStr s) ->
  result (process_blob_created blob_info event_info) = Raise AttributeError.
Proof.
  intros Hct Hv. unfold process_blob_created. step_logs. rewrite Hct. simpl default.
  destruct v; try (by exfalso; eapply Hv); by rewrite result_after.
Qed.

Lemma process_blob_created_calls blob_info event_info :
  calls Fprocess_blob_created (trace (process_blob_created blob_info event_info)) = 1%nat /\
  calls Fextract_blob_info (trace (process_blob_created blob_info event_info)) = 0%nat.
Proof.
  unfold process_blob_created. step_logs.
  destruct (default (JStr "") (blob_info !! "content_type")) as [| b | n | f | s | l | o];
    try (by split).
  unfold str_startswith. rewrite bind_ret.
  destruct (String.prefix "image/" s); [by run_stub |].
  rewrite bind_ret.
  destruct (String.prefix "text/" s); [by run_stub |].
  unfold py_eq_str.
  destruct (String.eqb s "application/json"); by run_stub.
Qed.

(** ** From the envelope to the pipeline *)

(** The envelope fields of a JSON object, each with its default. *)
Definition envelope_of (d : gmap string json) : cloudevent :=
  {| spec_version := default (JStr "1.0") (d !! "specversion");
     event_type := default (JStr "") (d !! "type");
     source := default (JStr "") (d !! "source");
     event_id := default (JStr "") (d !! "id");
     subject := default (JStr "") (d !! "subject");
     time := default (JStr "") (d !! "time");
     data := default (JObj ∅) (d !! "data") |}.

Lemma cloudevent_fields_dict d : cloudevent_fields (JObj d) = mret (envelope_of d).
Proof. unfold cloudevent_fields, dict_get. by rewrite !bind_ret. Qed.

(** The lines [process_cloudevent_http] logs before it looks at the type. *)
Definition envelope_logs (d : gmap string json) : list event :=
  let ce := envelope_of d in
  [Log LvInfo "CloudEvent received: {}" [FVal (JObj d)];
   Log LvInfo "CloudEvent Details:" [];
   Log LvInfo "  - Spec Version: {}" [FVal (spec_version ce)];
   Log LvInfo "  - Type: {}" [FVal (event_type ce)];
   Log LvInfo "  - Source: {}" [FVal (source ce)];
   Log LvInfo "  - ID: {}" [FVal (event_id ce)];
   Log LvInfo "  - Subject: {}" [FVal (subject ce)];
   Log LvInfo "  - Time: {}" [FVal (time ce)]].

Definition http_event_info (d : gmap string json) : gmap string json :=
  let ce := envelope_of d in
  <["spec_version" := spec_version ce]>
  (<["event_time" := time ce]>
  (<["event_type" := event_type ce]>
  (<["subject" := subject ce]>
  (<["source" := source ce]>
  (<["id" := event_id ce]> ∅))))).

(** The extraction and dispatch pipeline on a data payload. *)
Definition pipeline (data : json) (event_info : gmap string json) : M unit :=
  blob_info ← extract_blob_info data;
  process_blob_created blob_info event_info.

(** The type of a JSON-object envelope is the blob-created one. *)
Definition is_blob_created (d : gmap string json) : bool :=
  py_eq_str (default (JStr "") (d !! "type")) "Microsoft.Storage.BlobCreated".

Lemma process_cloudevent_http_dict d :
  process_cloudevent_http (JObj d) =
  after (envelope_logs d)
    (if is_blob_created d
     then pipeline (default (JObj ∅) (d !! "data")) (http_event_info d)
     else logger_warning "Unknown event type: {}"
            [FVal (default (JStr "") (d !! "type"))]).
Proof.
  unfold process_cloudevent_http.
  rewrite cloudevent_fields_dict, bind_ret. step_logs. done.
Qed.

Lemma process_cloudevent_http_not_dict v :
  (forall d, v <> JObj d) ->
  process_cloudevent_http v
  = Run [Log LvInfo "CloudEvent received: {}" [FVal v]] (Raise AttributeError).
Proof.
  intros Hv. unfold process_cloudevent_http, cloudevent_fields.
  destruct v; try (by exfalso; eapply Hv);
    simpl dict_get; rewrite !bind_raise_now; unfold logger_info;
    by rewrite bind_tell.
Qed.

(** How often each half of the pipeline was entered. *)
Definition pipeline_runs (t : list event) : nat * nat :=
  (calls Fextract_blob_info t, calls Fprocess_blob_created t).

Lemma pipeline_runs_app t1 t2 :
  pipeline_runs (t1 ++ t2) =
  ((fst (pipeline_runs t1) + fst (pipeline_runs t2))%nat,
   (snd (pipeline_runs t1) + snd (pipeline_runs t2))%nat).
Proof. unfold pipeline_runs. by rewrite !calls_app. Qed.

Lemma pipeline_runs_once data event_info :
  pipeline_runs (trace (pipeline data event_info)) = (1%nat, 1%nat).
Proof.
  unfold pipeline.
  destruct (extract_blob_info_returns data) as [blob_info Hok].
  rewrite (bind_ok _ _ _ Hok), trace_after, pipeline_runs_app.
  unfold pipeline_runs.
  destruct (extract_blob_info_calls data) as [-> ->].
  by destruct (process_blob_created_calls blob_info event_info) as [-> ->].
Qed.

Lemma trace_bind_mret {A B} (m : M A) (b : B) : trace (m ≫= fun _ => mret b) = trace m.
Proof. destruct m as [t [a | e]]; [| done]. unfold mbind, M_bind. simpl. apply app_nil_r. Qed.

Lemma result_bind_mret {A B} (m : M A) (b : B) :
  result (m ≫= fun _ => mret b) = match result m with Ok _ => Ok b | Raise e => Raise e end.
Proof. by rewrite result_bind. Qed.

(** ** The webhook endpoint *)

Definition http_error_handler (e : exn) : M HttpResponse.t :=
  logger_error "Error in HTTP CloudEvent handler: {}" [FExn e];;
  mret (response 500).

Definition post_error_handler (e : exn) : M HttpResponse.t :=
  logger_error "Error processing CloudEvent: {}" [FExn e];;
  mret (response 500).

Lemma try_except_returns {A} (m : M A) h :
  (forall e, exists a, result (h e) = Ok a) ->
  exists a, result (try_except m h) = Ok a.
Proof.
  intros Hh. rewrite result_try_except.
  destruct (result m) as [a | e]; [by exists a | apply Hh].
Qed.

Lemma post_error_handler_returns e :
  exists resp, result (post_error_handler e) = Ok resp.
Proof. by eexists. Qed.

(** The handler on an OPTIONS request. *)
Lemma http_options req :
  HttpRequest.method req = "OPTIONS" ->
  blob_created_http_handler req =
  after [Log LvInfo "Handling CloudEvent validation request" []]
    (let origin := HttpRequest.headers req !! "WebHook-Request-Origin" in
     if truthy_header origin
     then mret (HttpResponse.mk NoBody 200
                  {["WebHook-Allowed-Origin" := default "" origin]})
     else mret (response 400)).
Proof.
  intros Hm. unfold blob_created_http_handler. rewrite Hm.
  change (String.eqb "OPTIONS" "OPTIONS") with true. cbv iota.
  unfold logger_info. rewrite bind_tell, try_except_after. cbv zeta.
  by destruct (truthy_header _).
Qed.

(** The handler on a POST request. *)
Lemma http_post req :
  HttpRequest.method req = "POST" ->
  blob_created_http_handler req =
  after [Log LvInfo "Processing CloudEvent via HTTP trigger" []]
    (match HttpRequest.get_json req with
     | Raise e => post_error_handler e
     | Ok event_data =>
         if truthy event_data then
           try_except (process_cloudevent_http event_data;; mret (response 200))
             post_error_handler
         else Run [Log LvError "No JSON data in request" []] (Ok (response 400))
     end).
Proof.
  intros Hm. unfold blob_created_http_handler. rewrite Hm.
  change (String.eqb "POST" "OPTIONS") with false.
  change (String.eqb "POST" "POST") with true. cbv iota.
  unfold logger_info at 1. rewrite bind_tell, try_except_after.
  fold post_error_handler.
  match goal with
  | |- after _ (try_except ?inner _) = _ =>
      destruct (try_except_returns
                  (lift (HttpRequest.get_json req) ≫= fun event_data =>
                     if negb (truthy event_data)
                     then logger_error "No JSON data in request" [];;
                          mret (response 400)
                     else process_cloudevent_http event_data;;
                          mret (response 200))
                  post_error_handler post_error_handler_returns)
        as [resp Hresp]
  end.
  rewrite (try_except_ok _ _ _ Hresp). f_equal.
  destruct (HttpRequest.get_json req) as [event_data | e].
  - rewrite bind_lift_ok. by destruct (truthy event_data).
  - by rewrite bind_lift_raise.
Qed.

Lemma pipeline_runs_after {A} t (m : M A) :
  pipeline_runs t = (0%nat, 0%nat) ->
  pipeline_runs (trace (after t m)) = pipeline_runs (trace m).
Proof.
  unfold pipeline_runs. intros [= H1 H2].
  by rewrite trace_after, !calls_app, H1, H2.
Qed.

Lemma pipeline_runs_try_except {A} (m : M A) h :
  (forall e, pipeline_runs (trace (h e)) = (0%nat, 0%nat)) ->
  pipeline_runs (trace (try_except m h)) = pipeline_runs (trace m).
Proof.
  intros Hh. destruct m as [t [a | e]]; [done |].
  specialize (Hh e). unfold pipeline_runs in *. injection Hh as H1 H2.
  unfold try_except. simpl. rewrite !calls_app, H1, H2. f_equal; lia.
Qed.

Lemma is_blob_created_spec d :
  is_blob_created d = true <->
  d !! "type" = Some (JStr "Microsoft.Storage.BlobCreated").
Proof.
  unfold is_blob_created. destruct (d !! "type") as [v |]; simpl; [| done].
  destruct v; simpl; try done.
  rewrite String.eqb_eq. split; [by intros -> | by intros [= ->]].
Qed.

Lemma truthy_dict d : d <> ∅ -> truthy (JObj d) = true.
Proof. intros Hd. simpl. by rewrite bool_decide_eq_false_2. Qed.

(** What [process_cloudevent_http] does to the pipeline and how it ends. *)
Lemma process_cloudevent_http_runs d :
  pipeline_runs (trace (process_cloudevent_http (JObj d)))
  = (if is_blob_created d then (1%nat, 1%nat) else (0%nat, 0%nat)) /\
  (is_blob_created d = false ->
   result (process_cloudevent_http (JObj d)) = Ok tt).
Proof.
  rewrite process_cloudevent_http_dict. split.
  - rewrite pipeline_runs_after by done.
    destruct (is_blob_created d); [apply pipeline_runs_once | done].
  - by intros ->.
Qed.

Lemma event_getattr_id (event : EventGridEvent.t) :
  event_getattr event "id" = mret (JStr (EventGridEvent.id event)).
Proof. reflexivity. Qed.

Lemma event_getattr_source (event : EventGridEvent.t) :
  event_getattr event "source" = raise AttributeError.
Proof. reflexivity. Qed.

(** The push handler once the event yielded its payload: the read of
    [event.source] at line 34 raises, and the handler passes it on. *)
Lemma blob_created_handler_try_ok (event : EventGridEvent.t) event_data :
  EventGridEvent.get_json event = Ok event_data ->
  blob_created_handler_try event
  = Run [Log LvInfo "Raw event received: {}" [FEvent event]]
      (Raise AttributeError).
Proof.
  intros Hj. unfold blob_created_handler_try.
  rewrite Hj, bind_lift_ok, event_getattr_id, bind_ret.
  rewrite event_getattr_source, bind_raise_now.
  unfold logger_info. by rewrite bind_tell.
Qed.

Lemma blob_created_handler_ok (event : EventGridEvent.t) event_data :
  EventGridEvent.get_json event = Ok event_data ->
  blob_created_handler event
  = Run [Log LvInfo "Raw event received: {}" [FEvent event];
         Log LvError "Error processing CloudEvent: {}" [FExn AttributeError]]
      (Raise AttributeError).
Proof.
  intros Hj. unfold blob_created_handler.
  by rewrite (blob_created_handler_try_ok _ _ Hj).
Qed.

(** ** The health endpoint *)

(** C1, the code fails where the claim promises 200: for every request the
    health endpoint raises AttributeError, because [func] is the module
    [azure.functions] and has no [datetime]; no response is built. *)
Theorem health_check_raises (utcnow_isoformat : string) (req : HttpRequest.t) :
  health_check utcnow_isoformat req = raise AttributeError.
Proof. reflexivity. Qed.

(** ** The handshake *)

(** C2 (as amended).  On OPTIONS the handler always returns.  If the
    WebHook-Request-Origin header is present with a non-empty value, the
    status is 200 and WebHook-Allowed-Origin carries that value; if the
    header is absent, or present with the empty value, the status is 400. *)
Theorem options_handshake (req : HttpRequest.t) :
  HttpRequest.method req = "OPTIONS" ->
  exists resp,
    result (blob_created_http_handler req) = Ok resp /\
    match HttpRequest.headers req !! "WebHook-Request-Origin" with
    | Some origin =>
        if String.eqb origin "" then HttpResponse.status_code resp = 400
        else HttpResponse.status_code resp = 200 /\
             HttpResponse.headers resp !! "WebHook-Allowed-Origin" = Some origin
    | None => HttpResponse.status_code resp = 400
    end.
Proof.
  intros Hm. rewrite (http_options _ Hm). cbv zeta.
  destruct (HttpRequest.headers req !! "WebHook-Request-Origin") as [origin |];
    simpl; [| by eexists].
  destruct (String.eqb origin ""); simpl; eexists; (split; [reflexivity |]);
    simpl; [done |].
  split; [done |]. apply lookup_singleton_eq.
Qed.

Lemma options_handshake_witness :
  exists resp,
    result (blob_created_http_handler
              (HttpRequest.mk "OPTIONS"
                 {["WebHook-Request-Origin" := "https://example.com"]}
                 (Raise ValueError))) = Ok resp /\
    HttpResponse.status_code resp = 200 /\
    HttpResponse.headers resp !! "WebHook-Allowed-Origin"
      = Some "https://example.com".
Proof.
  exact (options_handshake
           (HttpRequest.mk "OPTIONS"
              {["WebHook-Request-Origin" := "https://example.com"]}
              (Raise ValueError)) eq_refl).
Defined.

(** C2, the claim as written fails: the header is present, its value is the
    empty string, and the answer is 400 without an allow header. *)
Lemma options_empty_origin_rejected :
  let req := HttpRequest.mk "OPTIONS" {["WebHook-Request-Origin" := ""]}
               (Raise ValueError) in
  HttpRequest.headers req !! "WebHook-Request-Origin" = Some "" /\
  result (blob_created_http_handler req) = Ok (response 400) /\
  HttpResponse.headers (response 400) !! "WebHook-Allowed-Origin" = None.
Proof. cbv zeta. split; [by vm_compute |]. split; [by vm_compute | done]. Qed.

(** ** Delivery over HTTP *)

(** The status a POST is answered with, read off the body and the run. *)
Definition post_status (body : outcome json) : Z :=
  match body with
  | Raise _ => 500
  | Ok event_data =>
      if truthy event_data then
        match result (process_cloudevent_http event_data) with
        | Ok _ => 200
        | Raise _ => 500
        end
      else 400
  end.

Lemma http_post_status req :
  HttpRequest.method req = "POST" ->
  exists resp,
    result (blob_created_http_handler req) = Ok resp /\
    HttpResponse.status_code resp = post_status (HttpRequest.get_json req).
Proof.
  intros Hm. rewrite (http_post _ Hm), result_after. unfold post_status.
  destruct (HttpRequest.get_json req) as [event_data | e]; [| by eexists].
  destruct (truthy event_data); [| by eexists].
  rewrite result_try_except, result_bind_mret.
  destruct (result (process_cloudevent_http event_data)); by eexists.
Qed.

(** The statuses of a POST as the code gives them.  A POST is always
    answered.  When the body decodes to a JSON value that is false in
    Python's sense (null, false, 0, "", [], {}), the status is 400.  When
    decoding the body raises, or when the body is accepted and a later
    stage raises, the status is 500. *)
Theorem post_error_statuses (req : HttpRequest.t) :
  HttpRequest.method req = "POST" ->
  exists resp,
    result (blob_created_http_handler req) = Ok resp /\
    (forall event_data,
       HttpRequest.get_json req = Ok event_data -> truthy event_data = false ->
       HttpResponse.status_code resp = 400) /\
    (forall e,
       HttpRequest.get_json req = Raise e ->
       HttpResponse.status_code resp = 500) /\
    (forall event_data e,
       HttpRequest.get_json req = Ok event_data -> truthy event_data = true ->
       result (process_cloudevent_http event_data) = Raise e ->
       HttpResponse.status_code resp = 500).
Proof.
  intros Hm. destruct (http_post_status req Hm) as (resp & Hres & Hst).
  exists resp. split; [done |]. rewrite Hst. unfold post_status.
  split; [| split].
  - by intros event_data -> ->.
  - by intros e ->.
  - by intros event_data e -> -> ->.
Qed.

Lemma post_error_statuses_witness :
  (exists resp,
     result (blob_created_http_handler
               (HttpRequest.mk "POST" ∅ (Ok (JObj ∅)))) = Ok resp /\
     HttpResponse.status_code resp = 400) /\
  (exists resp,
     result (blob_created_http_handler
               (HttpRequest.mk "POST" ∅ (Ok (JArr [JInt 1])))) = Ok resp /\
     HttpResponse.status_code resp = 500).
Proof.
  split.
  - destruct (post_error_statuses (HttpRequest.mk "POST" ∅ (Ok (JObj ∅))) eq_refl)
      as (resp & Hres & H400 & _).
    exists resp. split; [exact Hres |]. by apply (H400 (JObj ∅)).
  - destruct (post_error_statuses
                (HttpRequest.mk "POST" ∅ (Ok (JArr [JInt 1]))) eq_refl)
      as (resp & Hres & _ & _ & H500).
    exists resp. split; [exact Hres |].
    apply (H500 (JArr [JInt 1]) AttributeError); [done | done | by vm_compute].
Defined.

(** C3, the code fails where the claim promises 400: when reading the body
    as JSON raises, as it does for an empty body or one that is no JSON
    document, the inner handler answers 500; the branch that logs "No JSON
    data in request" and answers 400 is not reached. *)
Lemma post_undecodable_body_is_500 :
  result (blob_created_http_handler (HttpRequest.mk "POST" ∅ (Raise ValueError)))
  = Ok (response 500) /\
  HttpResponse.status_code (response 500) <> 400.
Proof. split; [by vm_compute | done]. Qed.

(** ** Which deliveries run the pipeline *)

Lemma http_post_pipeline req d :
  HttpRequest.method req = "POST" ->
  HttpRequest.get_json req = Ok (JObj d) ->
  d <> ∅ ->
  blob_created_http_handler req =
  after [Log LvInfo "Processing CloudEvent via HTTP trigger" []]
    (try_except (process_cloudevent_http (JObj d);; mret (response 200))
       post_error_handler).
Proof.
  intros Hm Hj Hd. by rewrite (http_post _ Hm), Hj, (truthy_dict _ Hd).
Qed.

Lemma http_post_pipeline_runs req d :
  HttpRequest.method req = "POST" ->
  HttpRequest.get_json req = Ok (JObj d) ->
  d <> ∅ ->
  pipeline_runs (trace (blob_created_http_handler req))
  = if is_blob_created d then (1%nat, 1%nat) else (0%nat, 0%nat).
Proof.
  intros Hm Hj Hd. rewrite (http_post_pipeline _ _ Hm Hj Hd).
  rewrite pipeline_runs_after by done.
  rewrite pipeline_runs_try_except by done.
  rewrite trace_bind_mret. apply process_cloudevent_http_runs.
Qed.

Lemma http_post_other_type req d :
  HttpRequest.method req = "POST" ->
  HttpRequest.get_json req = Ok (JObj d) ->
  d <> ∅ ->
  is_blob_created d = false ->
  blob_created_http_handler req =
  Run (Log LvInfo "Processing CloudEvent via HTTP trigger" []
       :: envelope_logs d
       ++ [Log LvWarning "Unknown event type: {}"
             [FVal (default (JStr "") (d !! "type"))]])
      (Ok (response 200)).
Proof.
  intros Hm Hj Hd Hty. rewrite (http_post_pipeline _ _ Hm Hj Hd).
  rewrite process_cloudevent_http_dict, Hty. reflexivity.
Qed.

(** On the HTTP POST path, for a non-empty JSON-object envelope, both
    halves of the pipeline run exactly once when the value under "type" is
    the string "Microsoft.Storage.BlobCreated" and not at all otherwise; in
    the latter case one warning is logged and the answer is 200. *)
Theorem http_post_runs_pipeline_iff_blob_created
    (req : HttpRequest.t) (d : gmap string json) :
  HttpRequest.method req = "POST" ->
  HttpRequest.get_json req = Ok (JObj d) ->
  d <> ∅ ->
  let m := blob_created_http_handler req in
  (d !! "type" = Some (JStr "Microsoft.Storage.BlobCreated") ->
   pipeline_runs (trace m) = (1%nat, 1%nat)) /\
  (d !! "type" <> Some (JStr "Microsoft.Storage.BlobCreated") ->
   pipeline_runs (trace m) = (0%nat, 0%nat) /\
   result m = Ok (response 200) /\
   In (Log LvWarning "Unknown event type: {}"
         [FVal (default (JStr "") (d !! "type"))]) (trace m)).
Proof.
  intros Hm Hj Hd m. subst m.
  rewrite (http_post_pipeline_runs _ _ Hm Hj Hd). split.
  - intros Hty. apply is_blob_created_spec in Hty. by rewrite Hty.
  - intros Hty.
    assert (Hf : is_blob_created d = false).
    { destruct (is_blob_created d) eqn:E; [| done].
      by apply is_blob_created_spec in E. }
    rewrite Hf, (http_post_other_type _ _ Hm Hj Hd Hf).
    split; [done |]. split; [done |].
    apply in_cons, in_or_app. right. by left.
Qed.

Lemma http_post_runs_pipeline_iff_blob_created_witness :
  pipeline_runs
    (trace (blob_created_http_handler
              (HttpRequest.mk "POST" ∅
                 (Ok (JObj {["type" := JStr "Microsoft.Storage.BlobCreated"]})))))
  = (1%nat, 1%nat) /\
  pipeline_runs
    (trace (blob_created_http_handler
              (HttpRequest.mk "POST" ∅
                 (Ok (JObj {["type" := JStr "Microsoft.Storage.BlobDeleted"]})))))
  = (0%nat, 0%nat).
Proof.
  split.
  - refine (proj1 (http_post_runs_pipeline_iff_blob_created
              (HttpRequest.mk "POST" ∅
                 (Ok (JObj {["type" := JStr "Microsoft.Storage.BlobCreated"]})))
              {["type" := JStr "Microsoft.Storage.BlobCreated"]}
              eq_refl eq_refl _) _).
    + apply insert_non_empty.
    + by vm_compute.
  - refine (proj1 (proj2 (http_post_runs_pipeline_iff_blob_created
              (HttpRequest.mk "POST" ∅
                 (Ok (JObj {["type" := JStr "Microsoft.Storage.BlobDeleted"]})))
              {["type" := JStr "Microsoft.Storage.BlobDeleted"]}
              eq_refl eq_refl _) _)).
    + apply insert_non_empty.
    + vm_compute. discriminate.
Defined.

(** C4, the code fails where the claim promises one run of the pipeline:
    on the push-trigger path an event of type
    "Microsoft.Storage.BlobCreated" with a payload raises AttributeError at
    the read of [event.source], before extraction and dispatch. *)
Theorem push_blob_created_event_not_processed :
  let event :=
    EventGridEvent.mk "1" "topic" "subj" "Microsoft.Storage.BlobCreated"
      "2024-01-01T00:00:00Z" None
      (Ok (JObj {["url" := JStr "https://acct.blob.core.windows.net/c/f.png"]})) in
  EventGridEvent.event_type event = "Microsoft.Storage.BlobCreated" /\
  result (blob_created_handler event) = Raise AttributeError /\
  pipeline_runs (trace (blob_created_handler event)) = (0%nat, 0%nat).
Proof.
  cbv zeta. split; [done |].
  erewrite blob_created_handler_ok; [done | reflexivity].
Qed.

(** ** The push trigger *)

(** C9.  Whenever the body of the push handler's [try] raises, the handler
    itself raises the same exception, after one error line on top of what
    the body had logged. *)
Theorem blob_created_handler_reraises (event : EventGridEvent.t) (e : exn) :
  result (blob_created_handler_try event) = Raise e ->
  result (blob_created_handler event) = Raise e /\
  trace (blob_created_handler event)
  = trace (blob_created_handler_try event)
    ++ [Log LvError "Error processing CloudEvent: {}" [FExn e]].
Proof.
  intros Hraise. unfold blob_created_handler.
  by rewrite (try_except_raise _ _ _ Hraise).
Qed.

Lemma blob_created_handler_reraises_witness :
  result (blob_created_handler
            (EventGridEvent.mk "1" "src" "subj" "Microsoft.Storage.BlobCreated"
               "2024-01-01T00:00:00Z" None
               (Ok (JObj {["contentType" := JInt 5]}))))
  = Raise AttributeError.
Proof.
  refine (proj1 (blob_created_handler_reraises
                   (EventGridEvent.mk "1" "src" "subj"
                      "Microsoft.Storage.BlobCreated"
                      "2024-01-01T00:00:00Z" None
                      (Ok (JObj {["contentType" := JInt 5]})))
                   AttributeError _)).
  by vm_compute.
Defined.

(** The handler raises only what the body of its [try] raised. *)
Lemma blob_created_handler_result event :
  result (blob_created_handler event) = result (blob_created_handler_try event).
Proof.
  unfold blob_created_handler. rewrite result_try_except.
  by destruct (result (blob_created_handler_try event)) as [[] | e].
Qed.

(** C10, the code fails where the claim promises a normal return: with a
    payload that is None, the push handler never reaches the payload test;
    the read of [event.source] raises AttributeError, the handler logs it
    and raises it again.  Neither the warning is logged nor the extractor
    or the router entered. *)
Theorem blob_created_handler_no_payload_raises :
  let event :=
    EventGridEvent.mk "1" "topic" "subj" "Microsoft.Storage.BlobCreated"
      "2024-01-01T00:00:00Z" None (Ok JNull) in
  truthy JNull = false /\
  blob_created_handler event
  = Run [Log LvInfo "Raw event received: {}" [FEvent event];
         Log LvError "Error processing CloudEvent: {}" [FExn AttributeError]]
      (Raise AttributeError) /\
  pipeline_runs (trace (blob_created_handler event)) = (0%nat, 0%nat).
Proof.
  cbv zeta. split; [done |].
  erewrite blob_created_handler_ok; [done | reflexivity].
Qed.

(** * Further properties of the code *)

(** ** Splitting and indexing *)

Lemma split_cons_inv sep s : exists h t, split sep s = h :: t.
Proof.
  destruct s as [| c r]; simpl; [by eexists _, _ |].
  destruct (Ascii.eqb c sep); [by eexists _, _ |].
  destruct (split sep r); by eexists _, _.
Qed.

(** Joining the segments of [s.split(sep)] with [sep] gives [s] back. *)
Theorem split_concat (sep : ascii) (s : string) :
  String.concat (String sep "") (split sep s) = s.
Proof.
  induction s as [| c r IH]; [done |].
  simpl split. destruct (Ascii.eqb_spec c sep) as [-> | Hne].
  - destruct (split_cons_inv sep r) as (h & t & Hr).
    rewrite Hr in *. simpl in *. by rewrite IH.
  - destruct (split sep r) as [| h t] eqn:Hr.
    + destruct (split_cons_inv sep r) as (h & t & Hr'). congruence.
    + destruct t as [| h' t']; simpl in *; by rewrite <- IH.
Qed.

(** [s.split(sep)] has one segment more than [s] has separators, and no
    segment contains the separator. *)
Theorem split_segments (sep : ascii) (s : string) :
  length (split sep s) = S (count_sep sep s) /\
  Forall (fun seg => count_sep sep seg = 0%nat) (split sep s).
Proof.
  split; [apply split_length |].
  induction s as [| c r IH]; [by repeat constructor |].
  simpl. destruct (Ascii.eqb c sep) eqn:Hc; [by constructor |].
  destruct (split sep r) as [| h t]; [repeat constructor; simpl; by rewrite Hc |].
  inversion IH as [| ? ? Hh Ht]; subst.
  constructor; [simpl; by rewrite Hc, Hh | done].
Qed.

(** [l[i]] returns exactly for [-len(l) <= i < len(l)] and raises
    IndexError otherwise; a negative index counts from the end. *)
Theorem list_getitem_bounds {A} (l : list A) (i : Z) :
  let n := Z.of_nat (length l) in
  (- n <= i < n ->
   exists x, list_getitem l i = mret x /\
             l !! Z.to_nat (if i <? 0 then i + n else i) = Some x) /\
  (i < - n \/ n <= i -> list_getitem l i = raise IndexError).
Proof.
  intros n. unfold list_getitem. fold n. split.
  - intros Hi.
    set (j := if i <? 0 then i + n else i).
    assert (Hj : 0 <= j < n).
    { subst j. destruct (Z.ltb_spec i 0); lia. }
    assert (H1 : (j <? 0) = false) by (apply Z.ltb_ge; lia).
    assert (H2 : (n <=? j) = false) by (apply Z.leb_gt; lia).
    rewrite H1, H2. simpl.
    destruct (l !! Z.to_nat j) as [x |] eqn:Hx; [by exists x |].
    apply lookup_ge_None in Hx. subst n. lia.
  - intros Hi.
    set (j := if i <? 0 then i + n else i).
    assert (Hj : j < 0 \/ n <= j).
    { subst j. destruct (Z.ltb_spec i 0); lia. }
    destruct Hj as [Hj | Hj].
    + assert (H1 : (j <? 0) = true) by (apply Z.ltb_lt; lia). by rewrite H1.
    + assert (H2 : (n <=? j) = true) by (apply Z.leb_le; lia).
      rewrite H2. by rewrite orb_true_r.
Qed.

Lemma list_getitem_bounds_witness :
  (exists x, list_getitem ["a"; "b"; "c"] (-2) = mret x /\
             ["a"; "b"; "c"] !! 1%nat = Some x) /\
  list_getitem ["a"] (-2) = raise IndexError.
Proof.
  split.
  - apply (proj1 (list_getitem_bounds ["a"; "b"; "c"] (-2))). simpl. lia.
  - apply (proj2 (list_getitem_bounds ["a"] (-2))). simpl. lia.
Defined.

(** ** More on the extractor *)

(** The extractor never raises: either it returns silently, or it logs one
    error line and returns the empty dict. *)
Theorem extract_blob_info_silent_or_empty (v : json) :
  exists blob_info,
    result (extract_blob_info v) = Ok blob_info /\
    (trace (extract_blob_info v) = [Enter Fextract_blob_info] \/
     exists e, extract_blob_info v = extraction_failed e /\ blob_info = ∅).
Proof.
  destruct v as [| b | n | f | s | l | d];
    try (rewrite extract_blob_info_not_dict by done;
         exists ∅; split; [done |]; right; by eexists).
  rewrite extract_blob_info_dict. cbv zeta.
  destruct (truthy _); [| eexists; split; [done |]; by left].
  destruct (default _ _);
    try (exists ∅; split; [done |]; right; by eexists).
  destruct (reverse _) as [| ? [| ? ?]];
    try (exists ∅; split; [done |]; right; by eexists).
  eexists; split; [done |]; by left.
Qed.

(** For a url of at least two segments, the blob name is the last segment,
    the container name the one before it, and the nine copied fields are
    kept; nothing is logged. *)
Theorem extract_blob_info_names
    (d : gmap string json) (s : string) (pre : list string) (c b : string) :
  d !! "url" = Some (JStr s) ->
  split "/" s = pre ++ [c; b] ->
  extract_blob_info (JObj d)
  = Run [Enter Fextract_blob_info]
      (Ok (<["container_name" := JStr c]>
            (<["blob_name" := JStr b]> (copied_fields d)))).
Proof.
  intros Hurl Hsplit. rewrite extract_blob_info_dict, Hurl. simpl default.
  cbv zeta.
  assert (Ht : truthy (JStr s) = true).
  { simpl. destruct (String.eqb_spec s "") as [-> | Hne]; [| done].
    simpl in Hsplit. by destruct pre as [| ? [| ? ?]]. }
  rewrite Ht, Hsplit, reverse_app. done.
Qed.

Lemma extract_blob_info_names_witness :
  let d : gmap string json :=
    {["url" := JStr "https://acct.blob.core.windows.net/mycontainer/myfile.png"]} in
  extract_blob_info (JObj d)
  = Run [Enter Fextract_blob_info]
      (Ok (<["container_name" := JStr "mycontainer"]>
            (<["blob_name" := JStr "myfile.png"]> (copied_fields d)))).
Proof.
  cbv zeta.
  apply (extract_blob_info_names _
           "https://acct.blob.core.windows.net/mycontainer/myfile.png"
           ["https:"; ""; "acct.blob.core.windows.net"]).
  - apply lookup_singleton_eq.
  - by vm_compute.
Defined.

(** A url that is true in Python's sense but no string has no [split]:
    the extractor logs the AttributeError and returns the empty dict. *)
Theorem extract_blob_info_url_not_string (d : gmap string json) (v : json) :
  d !! "url" = Some v ->
  truthy v = true ->
  (forall s, v <> JStr s) ->
  extract_blob_info (JObj d) = extraction_failed AttributeError.
Proof.
  intros Hurl Ht Hv. rewrite extract_blob_info_dict, Hurl. simpl default.
  cbv zeta. rewrite Ht. destruct v; try done. by exfalso; eapply Hv.
Qed.

Lemma extract_blob_info_url_not_string_witness :
  extract_blob_info (JObj {["url" := JInt 5]}) = extraction_failed AttributeError.
Proof.
  apply (extract_blob_info_url_not_string _ (JInt 5));
    [apply lookup_singleton_eq | done | done].
Defined.

(** A payload that is no dict has no [get]: same outcome. *)
Theorem extract_blob_info_payload_not_dict (v : json) :
  (forall d, v <> JObj d) ->
  extract_blob_info v = extraction_failed AttributeError /\
  result (extract_blob_info v) = Ok ∅.
Proof. intros Hv. by rewrite extract_blob_info_not_dict. Qed.

Lemma extract_blob_info_payload_not_dict_witness :
  result (extract_blob_info (JStr "not a dict")) = Ok ∅.
Proof.
  apply (proj2 (extract_blob_info_payload_not_dict (JStr "not a dict")
                  ltac:(done))).
Defined.

(** ** More on the router and the pipeline *)

Lemma stub_calls_app t1 t2 :
  stub_calls t1 = [0; 0; 0; 0]%nat -> stub_calls (t1 ++ t2) = stub_calls t2.
Proof.
  unfold stub_calls. intros [= H1 H2 H3 H4].
  by rewrite !calls_app, H1, H2, H3, H4.
Qed.

Lemma extract_blob_info_no_stub (v : json) :
  stub_calls (trace (extract_blob_info v)) = [0; 0; 0; 0]%nat.
Proof.
  destruct v as [| b | n | f | s | l | d];
    try (by rewrite extract_blob_info_not_dict by done).
  rewrite extract_blob_info_dict. cbv zeta.
  destruct (truthy _); [| done].
  destruct (default _ _); try done.
  by destruct (reverse _) as [| ? [| ? ?]].
Qed.

Lemma extract_blob_info_content_type (d blob_info : gmap string json) :
  result (extract_blob_info (JObj d)) = Ok blob_info ->
  blob_info <> ∅ ->
  blob_info !! "content_type" = Some (default (JStr "") (d !! "contentType")).
Proof.
  rewrite extract_blob_info_dict. cbv zeta.
  destruct (truthy _).
  - destruct (default (JStr "") (d !! "url"));
      try (simpl; intros [= <-]; done).
    destruct (reverse _) as [| blob_name [| container_name rest]];
      simpl; intros [= <-] Hne; [done | done |].
    rewrite !lookup_insert_ne by done. apply copied_fields_content_type.
  - simpl. intros [= <-] _. apply copied_fields_content_type.
Qed.

Lemma process_blob_created_no_content_type blob_info event_info :
  blob_info !! "content_type" = None ->
  result (process_blob_created blob_info event_info) = Ok tt /\
  stub_calls (trace (process_blob_created blob_info event_info))
  = [0; 0; 0; 1]%nat.
Proof.
  intros Hct. unfold process_blob_created.
  step_logs. rewrite Hct. simpl default.
  unfold str_startswith. rewrite bind_ret.
  change (String.prefix "image/" "") with false. cbv iota.
  rewrite bind_ret.
  change (String.prefix "text/" "") with false. cbv iota.
  change (py_eq_str (JStr "") "application/json") with false. cbv iota.
  by run_stub.
Qed.

(** The router fails in one way only: a content type that is present and
    no string raises AttributeError before any stub is called; in every
    other case the router returns. *)
Theorem process_blob_created_outcome (blob_info event_info : gmap string json) :
  match default (JStr "") (blob_info !! "content_type") with
  | JStr _ => result (process_blob_created blob_info event_info) = Ok tt
  | _ =>
      result (process_blob_created blob_info event_info) = Raise AttributeError /\
      stub_calls (trace (process_blob_created blob_info event_info))
      = [0; 0; 0; 0]%nat
  end.
Proof.
  unfold process_blob_created. step_logs.
  destruct (default (JStr "") (blob_info !! "content_type"))
    as [| b | n | f | s | l | o]; try (by split).
  unfold str_startswith. rewrite bind_ret.
  destruct (String.prefix "image/" s); [by run_stub |].
  rewrite bind_ret.
  destruct (String.prefix "text/" s); [by run_stub |].
  unfold py_eq_str.
  destruct (String.eqb s "application/json"); by run_stub.
Qed.

(** When extraction fails, the router receives the empty dict and hands it
    to the generic stub; the delivery still completes. *)
Theorem pipeline_failed_extraction_goes_generic
    (data : json) (event_info : gmap string json) :
  result (extract_blob_info data) = Ok ∅ ->
  result (pipeline data event_info) = Ok tt /\
  stub_calls (trace (pipeline data event_info)) = [0; 0; 0; 1]%nat.
Proof.
  intros Hext. unfold pipeline. rewrite (bind_ok _ _ _ Hext).
  rewrite result_after, trace_after.
  rewrite stub_calls_app by apply extract_blob_info_no_stub.
  by apply process_blob_created_no_content_type.
Qed.

Lemma pipeline_failed_extraction_goes_generic_witness :
  stub_calls (trace (pipeline (JObj {["url" := JStr "readme.txt"]}) ∅))
  = [0; 0; 0; 1]%nat.
Proof.
  refine (proj2 (pipeline_failed_extraction_goes_generic
                   (JObj {["url" := JStr "readme.txt"]}) ∅ _)).
  by vm_compute.
Defined.

(** End to end: when extraction of a dict payload succeeds, the payload's
    contentType string alone selects the stub, and the pipeline returns. *)
Theorem pipeline_dispatches_on_content_type
    (d blob_info event_info : gmap string json) (s : string) :
  result (extract_blob_info (JObj d)) = Ok blob_info ->
  blob_info <> ∅ ->
  d !! "contentType" = Some (JStr s) ->
  result (pipeline (JObj d) event_info) = Ok tt /\
  stub_calls (trace (pipeline (JObj d) event_info)) =
    if String.prefix "image/" s then [1; 0; 0; 0]%nat
    else if String.prefix "text/" s then [0; 1; 0; 0]%nat
    else if String.eqb s "application/json" then [0; 0; 1; 0]%nat
    else [0; 0; 0; 1]%nat.
Proof.
  intros Hext Hne Hct.
  pose proof (extract_blob_info_content_type _ _ Hext Hne) as Hbi.
  rewrite Hct in Hbi. simpl in Hbi.
  unfold pipeline. rewrite (bind_ok _ _ _ Hext), result_after, trace_after.
  rewrite stub_calls_app by apply extract_blob_info_no_stub.
  by apply process_blob_created_str.
Qed.

Lemma pipeline_dispatches_on_content_type_witness :
  stub_calls
    (trace (pipeline
              (JObj (<["url" := JStr "https://acct.blob.core.windows.net/c/notes.txt"]>
                       {["contentType" := JStr "text/plain"]})) ∅))
  = [0; 1; 0; 0]%nat.
Proof.
  pose (d := (<["url" := JStr "https://acct.blob.core.windows.net/c/notes.txt"]>
                {["contentType" := JStr "text/plain"]} : gmap string json)).
  refine (proj2 (pipeline_dispatches_on_content_type d
                   (<["container_name" := JStr "c"]>
                      (<["blob_name" := JStr "notes.txt"]> (copied_fields d)))
                   ∅ "text/plain" _ _ _)).
  - rewrite extract_blob_info_dict.
    assert (Hurl : d !! "url"
                   = Some (JStr "https://acct.blob.core.windows.net/c/notes.txt"))
      by apply lookup_insert_eq.
    rewrite Hurl. reflexivity.
  - apply insert_non_empty.
  - reflexivity.
Defined.

(** ** More on the webhook endpoint *)

Lemma http_other_method req :
  HttpRequest.method req <> "OPTIONS" ->
  HttpRequest.method req <> "POST" ->
  blob_created_http_handler req = Run [] (Ok (response 405)).
Proof.
  intros H1 H2. unfold blob_created_http_handler.
  destruct (String.eqb_spec (HttpRequest.method req) "OPTIONS"); [done |].
  by destruct (String.eqb_spec (HttpRequest.method req) "POST").
Qed.

(** Any method other than OPTIONS and POST is answered 405; nothing is
    logged and the body is not read. *)
Theorem http_method_not_allowed (req : HttpRequest.t) :
  HttpRequest.method req <> "OPTIONS" ->
  HttpRequest.method req <> "POST" ->
  blob_created_http_handler req = Run [] (Ok (response 405)) /\
  pipeline_runs (trace (blob_created_http_handler req)) = (0%nat, 0%nat).
Proof. intros H1 H2. by rewrite (http_other_method _ H1 H2). Qed.

Lemma http_method_not_allowed_witness :
  blob_created_http_handler (HttpRequest.mk "GET" ∅ (Raise ValueError))
  = Run [] (Ok (response 405)).
Proof.
  apply (proj1 (http_method_not_allowed
                  (HttpRequest.mk "GET" ∅ (Raise ValueError))
                  ltac:(discriminate) ltac:(discriminate))).
Defined.

(** The webhook handler never raises: every request is answered, with an
    empty body and one of the statuses 200, 400, 405 and 500. *)
Theorem http_handler_always_answers (req : HttpRequest.t) :
  exists resp,
    result (blob_created_http_handler req) = Ok resp /\
    HttpResponse.body resp = NoBody /\
    HttpResponse.status_code resp ∈ [200; 400; 405; 500].
Proof.
  destruct (String.eqb_spec (HttpRequest.method req) "OPTIONS") as [Hopt | Hopt].
  - rewrite (http_options _ Hopt), result_after. cbv zeta.
    destruct (truthy_header _); eexists; (split; [reflexivity |]);
      (split; [done |]); simpl; set_solver.
  - destruct (String.eqb_spec (HttpRequest.method req) "POST") as [Hpost | Hpost].
    + rewrite (http_post _ Hpost), result_after.
      destruct (HttpRequest.get_json req) as [event_data | e].
      * destruct (truthy event_data).
        -- rewrite result_try_except, result_bind_mret.
           destruct (result (process_cloudevent_http event_data));
             eexists; (split; [reflexivity |]); (split; [done |]);
             simpl; set_solver.
        -- eexists; (split; [reflexivity |]); (split; [done |]);
             simpl; set_solver.
      * eexists; (split; [reflexivity |]); (split; [done |]);
          simpl; set_solver.
    + rewrite (http_other_method _ Hopt Hpost).
      eexists; (split; [reflexivity |]); (split; [done |]); simpl; set_solver.
Qed.

(** The handshake does not read the body and runs no part of the pipeline:
    an OPTIONS request logs one line, whatever its body is. *)
Theorem options_logs_one_line (req : HttpRequest.t) :
  HttpRequest.method req = "OPTIONS" ->
  trace (blob_created_http_handler req)
  = [Log LvInfo "Handling CloudEvent validation request" []] /\
  pipeline_runs (trace (blob_created_http_handler req)) = (0%nat, 0%nat).
Proof.
  intros Hm. rewrite (http_options _ Hm). cbv zeta.
  by destruct (truthy_header _).
Qed.

Lemma options_logs_one_line_witness :
  trace (blob_created_http_handler
           (HttpRequest.mk "OPTIONS" ∅ (Raise ValueError)))
  = [Log LvInfo "Handling CloudEvent validation request" []].
Proof.
  apply (proj1 (options_logs_one_line
                  (HttpRequest.mk "OPTIONS" ∅ (Raise ValueError)) eq_refl)).
Defined.

(** A POST whose body decodes to a true value that is no JSON object (a
    non-empty array or string, a non-zero number, true) fails at the first
    [get]: it is answered 500 and the pipeline does not run. *)
Theorem post_non_object_body (req : HttpRequest.t) (v : json) :
  HttpRequest.method req = "POST" ->
  HttpRequest.get_json req = Ok v ->
  truthy v = true ->
  (forall d, v <> JObj d) ->
  result (blob_created_http_handler req) = Ok (response 500) /\
  pipeline_runs (trace (blob_created_http_handler req)) = (0%nat, 0%nat).
Proof.
  intros Hm Hj Ht Hv.
  rewrite (http_post _ Hm), Hj, Ht, (process_cloudevent_http_not_dict _ Hv).
  by split.
Qed.

Lemma post_non_object_body_witness :
  result (blob_created_http_handler
            (HttpRequest.mk "POST" ∅ (Ok (JStr "hello"))))
  = Ok (response 500).
Proof.
  apply (proj1 (post_non_object_body
                  (HttpRequest.mk "POST" ∅ (Ok (JStr "hello"))) (JStr "hello")
                  eq_refl eq_refl eq_refl ltac:(done))).
Defined.

(** A POST of a non-empty JSON object is answered 200 unless the pipeline
    raised: an envelope of another type always gets 200, a blob-created one
    gets 200 or 500 as its pipeline returns or raises. *)
Theorem post_object_status (req : HttpRequest.t) (d : gmap string json) :
  HttpRequest.method req = "POST" ->
  HttpRequest.get_json req = Ok (JObj d) ->
  d <> ∅ ->
  result (blob_created_http_handler req) =
    if is_blob_created d then
      match result (pipeline (default (JObj ∅) (d !! "data")) (http_event_info d))
      with
      | Ok _ => Ok (response 200)
      | Raise _ => Ok (response 500)
      end
    else Ok (response 200).
Proof.
  intros Hm Hj Hd. rewrite (http_post_pipeline _ _ Hm Hj Hd), result_after.
  rewrite result_try_except, result_bind_mret, process_cloudevent_http_dict.
  rewrite result_after.
  destruct (is_blob_created d); [| done].
  by destruct (result (pipeline _ _)).
Qed.

Lemma post_object_status_witness :
  result (blob_created_http_handler
            (HttpRequest.mk "POST" ∅
               (Ok (JObj (<["type" := JStr "Microsoft.Storage.BlobCreated"]>
                            {["data" := JObj {["contentType" := JInt 5]}]})))))
  = Ok (response 500).
Proof.
  pose (d := (<["type" := JStr "Microsoft.Storage.BlobCreated"]>
                {["data" := JObj {["contentType" := JInt 5]}]}
              : gmap string json)).
  rewrite (post_object_status (HttpRequest.mk "POST" ∅ (Ok (JObj d))) d
             eq_refl eq_refl (insert_non_empty _ _ _)).
  by vm_compute.
Defined.

(** ** More on the push trigger *)

(** The push handler never completes and never reaches the pipeline: when
    reading the payload raises, it raises that exception; when the payload
    was read, the read of [event.source] raises AttributeError, whatever
    the payload and the event type are. *)
Theorem push_handler_never_completes (event : EventGridEvent.t) :
  result (blob_created_handler event)
  = match EventGridEvent.get_json event with
    | Ok _ => Raise AttributeError
    | Raise e => Raise e
    end /\
  pipeline_runs (trace (blob_created_handler event)) = (0%nat, 0%nat).
Proof.
  destruct (EventGridEvent.get_json event) as [event_data | e] eqn:Hj.
  - by rewrite (blob_created_handler_ok _ _ Hj).
  - unfold blob_created_handler, blob_created_handler_try.
    rewrite Hj, bind_lift_raise. unfold logger_info. by rewrite bind_tell.
Qed.

(** When reading the event's payload raises, the push handler logs the raw
    event and one error line, raises the same exception, and runs no part
    of the pipeline. *)
Theorem push_handler_payload_error (event : EventGridEvent.t) (e : exn) :
  EventGridEvent.get_json event = Raise e ->
  blob_created_handler event
  = Run [Log LvInfo "Raw event received: {}" [FEvent event];
         Log LvError "Error processing CloudEvent: {}" [FExn e]] (Raise e) /\
  pipeline_runs (trace (blob_created_handler event)) = (0%nat, 0%nat).
Proof.
  intros Hj.
  assert (Hrun : blob_created_handler event
                 = Run [Log LvInfo "Raw event received: {}" [FEvent event];
                        Log LvError "Error processing CloudEvent: {}" [FExn e]]
                     (Raise e)); [| by rewrite Hrun].
  unfold blob_created_handler, blob_created_handler_try.
  rewrite Hj, bind_lift_raise. unfold logger_info. by rewrite bind_tell.
Qed.

Lemma push_handler_payload_error_witness :
  result (blob_created_handler
            (EventGridEvent.mk "1" "src" "subj" "Microsoft.Storage.BlobCreated"
               "2024-01-01T00:00:00Z" None (Raise ValueError)))
  = Raise ValueError.
Proof.
  pose proof (push_handler_payload_error
                (EventGridEvent.mk "1" "src" "subj" "Microsoft.Storage.BlobCreated"
                   "2024-01-01T00:00:00Z" None (Raise ValueError))
                ValueError eq_refl) as [Hrun _].
  by rewrite Hrun.
Defined.
